(** * fetch_bitcoin_price.py: the price recorder, embedded and verified

    The script is one straight line of effectful calls: an HTTP GET, the
    decoding of the JSON body, two subscripts, a clock reading, a database
    connection, two statements, a commit, two closes and a print.  It is
    embedded here as a program in a state-and-exception monad over

    - an environment [Env] that answers for everything the script does not
      own (the network, the local clock, the database server, the standard
      output), and
    - a state [State] holding the committed database, the transaction view
      of every open connection, the standard output and a log of the calls
      made so far.

    The monad has [ret], [bind] and [raise] and nothing else: the source has
    no [try], so there is no handler to embed.

    What the database driver and the server make of a string or of a list
    sent as a value is not in the source; it is taken as a parameter, the
    class [Server]. *)

From Stdlib Require Import ZArith Floats.SpecFloat.
From stdpp Require Import gmap strings list.

Set Warnings "-register-all".
Open Scope Z_scope.

(** ** Python values *)

(** What [response.json()] can return: the standard [json] decoder maps
    objects to [dict], arrays to [list], numbers without fraction or
    exponent to [int] and all others to [float] (IEEE 754 binary64, kept
    here as the Standard Library's [spec_float]). *)
Inductive pyval : Type :=
  | PNone
  | PBool (b : bool)
  | PInt (z : Z)
  | PFloat (f : spec_float)
  | PStr (s : string)
  | PList (l : list pyval)
  | PDict (d : gmap string pyval).

(** A [pandas.Timestamp] as [pd.Timestamp.now()] makes it: the reading in
    microseconds (the resolution of [datetime.now()], from which it is
    built, and of a TIMESTAMPTZ column) and its [tzinfo] ([None] for a
    naive timestamp, [Some off] for an aware one with UTC offset [off]). *)
Record Timestamp : Type := { ts_value : Z; ts_tzinfo : option Z }.

#[global] Instance Timestamp_eq_dec : EqDecision Timestamp.
Proof. solve_decision. Defined.

Definition tz_aware (t : Timestamp) : bool :=
  match ts_tzinfo t with Some _ => true | None => false end.

(** The exceptions the calls of the script raise.  Those of the database
    driver are classes of psycopg2; the errors of the server come as the
    class psycopg2 gives to their SQLSTATE. *)
Inductive exn : Type :=
  | RequestException          (* requests.get *)
  | JSONDecodeError           (* response.json() *)
  | KeyError (k : string)     (* d[k], d a dict without k *)
  | TypeError                 (* d[k], d not a dict *)
  | OperationalError          (* psycopg2.connect; a server out of resources *)
  | ProgrammingError          (* a value that cannot be adapted; a missing
                                 relation or column, a type that does not
                                 fit the column, no key for ON CONFLICT *)
  | DataError                 (* a value out of the range of the column, a
                                 text that is not a value of its type *)
  | DatabaseError             (* a commit the server refuses *)
  | InterfaceError            (* use or close of a closed connection *)
  | OSError.                  (* write to standard output *)

Inductive Outcome (A : Type) : Type :=
  | Ok (a : A)
  | Raise (e : exn).
Arguments Ok {A} a.
Arguments Raise {A} e.

(** ** The database *)

Inductive sqltype : Type := TIMESTAMPTZ | FLOAT.

Record Column : Type :=
  { col_name : string; col_type : sqltype; col_primary_key : bool }.

(** What a column holds: NULL, a float8 (the FLOAT of the script), or an
    instant. *)
Inductive sqlvalue : Type :=
  | SqlNull
  | SqlFloat8 (f : spec_float)
  | SqlTimestamptz (instant : Z).

(** A row of [bitcoin_price], on its two columns: the timestamp as the
    script sent it (which instant the server makes of a naive timestamp is
    a matter of the time zone of its session, and is not modelled) and the
    price as the column stores it. *)
Record Row : Type := { row_timestamp : Timestamp; row_price_usd : sqlvalue }.

Record Table : Type := { tbl_columns : list Column; tbl_rows : list Row }.

(** The catalogue: tables by name. *)
Abbreviation Database := (gmap string Table).

(** The two statements of the script, with the Python values passed for
    their placeholders. *)
Inductive Stmt : Type :=
  | CreateTableIfNotExists (name : string) (cols : list Column)
  | InsertOnConflictDoNothing (name : string) (ts : Timestamp) (price : pyval).

Definition has_timestamp (ts : Timestamp) (rows : list Row) : bool :=
  existsb (fun r => bool_decide (row_timestamp r = ts)) rows.

(** [INSERT ... ON CONFLICT (timestamp) DO NOTHING] on the rows of a table. *)
Definition insert_on_conflict_do_nothing
    (ts : Timestamp) (price : sqlvalue) (rows : list Row) : list Row :=
  if has_timestamp ts rows then rows
  else rows ++ [ {| row_timestamp := ts; row_price_usd := price |} ].

(** The primary key of a table: no two rows with one timestamp. *)
Definition pk_unique (rows : list Row) : Prop :=
  NoDup (map row_timestamp rows).

Definition find_column (name : string) (cols : list Column) : option Column :=
  List.find (fun c => bool_decide (col_name c = name)) cols.

(** The columns of the primary key, in the order of the table. *)
Definition key_columns (cols : list Column) : list string :=
  map col_name (List.filter col_primary_key cols).

(** An integer sent for a float8 column: the nearest binary64, ties to
    even; an error when that is beyond the largest. *)
Definition float8_of_int (z : Z) : Outcome sqlvalue :=
  match binary_normalize 53 1024 z 0 false with
  | S754_infinity _ => Raise DataError
  | f => Ok (SqlFloat8 f)
  end.

(** ** Constants of the script (lines 6-13, 29-32) *)

Definition API_URL : string :=
  "https://api.coingecko.com/api/v3/simple/price?ids=bitcoin&vs_currencies=usd".

Record DbSettings : Type :=
  { dbname : string; user : string; password : string;
    host : string; port : Z }.

Definition DB_SETTINGS : DbSettings :=
  {| dbname := "api_data_db"; user := "api_user"; password := "------------";
     host := "localhost"; port := 5432 |}.

Definition bitcoin_price : string := "bitcoin_price".

Definition bitcoin_price_columns : list Column :=
  [ {| col_name := "timestamp"; col_type := TIMESTAMPTZ; col_primary_key := true |};
    {| col_name := "price_usd"; col_type := FLOAT; col_primary_key := false |} ].

Definition create_table : Stmt :=
  CreateTableIfNotExists bitcoin_price bitcoin_price_columns.

Definition insert_row (timestamp : Timestamp) (price_usd : pyval) : Stmt :=
  InsertOnConflictDoNothing bitcoin_price timestamp price_usd.

(** The f-string of line 46, its two fields left unformatted. *)
Inductive fragment : Type :=
  | Lit (s : string)
  | FmtValue (v : pyval)
  | FmtTimestamp (t : Timestamp).

Definition confirmation (price_usd : pyval) (timestamp : Timestamp) : list fragment :=
  [ Lit "Inserted Bitcoin price "; FmtValue price_usd;
    Lit " USD at "; FmtTimestamp timestamp ].

(** ** Environment, state and log *)

Record Response : Type :=
  { status_code : Z;
    json_body : option pyval   (* None: the body is not JSON *) }.

Record Env : Type :=
  { env_http : string -> option Response;   (* None: the request fails *)
    env_clock : Z;                           (* the local clock *)
    env_connect : DbSettings -> bool;        (* the server accepts the connection *)
    env_refuses : Stmt -> Database -> option exn;
       (* the server refuses a statement it could run, for a reason of its
          own (a missing privilege, a full disk), with this exception *)
    env_commit_ok : bool;
    env_cursor_close_ok : bool;
    env_conn_close_ok : bool;
    env_stdout_ok : bool   (* a line written within [print] reaches the
                              standard output *) }.

(** The calls the script makes, as logged. *)
Inductive Op : Type :=
  | OpGet (url : string)
  | OpJson
  | OpSubscript (key : string)
  | OpNow (t : Timestamp)
  | OpConnect (settings : DbSettings)
  | OpCursor (conn : nat)
  | OpExecute (conn : nat) (s : Stmt)
  | OpCommit (conn : nat)
  | OpCursorClose (conn : nat)
  | OpConnClose (conn : nat)
  | OpPrint (line : list fragment).

(** One log entry: the call and whether it returned ([true]) or raised. *)
Abbreviation Event := (Op * bool)%type.

Record State : Type :=
  { st_db : Database;                 (* committed *)
    st_conns : gmap nat Database;     (* open connections, each with its view *)
    st_next : nat;                    (* next connection handle *)
    st_stdout : list (list fragment);
    st_trace : list Event }.

Definition log (op : Op) (ok : bool) (st : State) : State :=
  {| st_db := st_db st; st_conns := st_conns st; st_next := st_next st;
     st_stdout := st_stdout st; st_trace := st_trace st ++ [(op, ok)] |}.

Definition set_conns (conns : gmap nat Database) (st : State) : State :=
  {| st_db := st_db st; st_conns := conns; st_next := st_next st;
     st_stdout := st_stdout st; st_trace := st_trace st |}.

(** What is left of a run: the exit status, the uncaught exception if any,
    the committed database, the standard output and the log. *)
Record Result : Type :=
  { exit_status : Z;
    res_exn : option exn;
    res_db : Database;
    res_stdout : list (list fragment);
    res_trace : list Event }.

Definition rows_of (db : Database) : list Row :=
  match db !! bitcoin_price with
  | Some t => tbl_rows t
  | None => []
  end.

Definition now (env : Env) : Timestamp :=
  {| ts_value := env_clock env; ts_tzinfo := None |}.

(** ** The calls of a run, in the order of the source *)

(** Lines 16-20. *)
Definition ops_fetch : list Op :=
  [ OpGet API_URL; OpJson; OpSubscript "bitcoin"; OpSubscript "usd" ].

(** Lines 21-46, for the timestamp and price of lines 20-21. *)
Definition ops_record (t : Timestamp) (v : pyval) : list Op :=
  [ OpNow t; OpConnect DB_SETTINGS; OpCursor 0;
    OpExecute 0 create_table; OpExecute 0 (insert_row t v);
    OpCommit 0; OpCursorClose 0; OpConnClose 0;
    OpPrint (confirmation v t) ].

Definition script_ops (t : Timestamp) (v : pyval) : list Op :=
  ops_fetch ++ ops_record t v.

Definition returned (op : Op) : Event := (op, true).
Definition raised (op : Op) : Event := (op, false).

(** The log of a run whose first [k] calls returned and whose next raised. *)
Definition failed_at (k : nat) (ops : list Op) : list Event :=
  map returned (take k ops) ++ map raised (take 1 (drop k ops)).

(** The log of a run all of whose calls returned. *)
Definition all_returned (ops : list Op) : list Event := map returned ops.

Definition aborted (e : exn) (db : Database) (k : nat) (ops : list Op) : Result :=
  {| exit_status := 1; res_exn := Some e; res_db := db;
     res_stdout := []; res_trace := failed_at k ops |}.

Definition completed (db : Database) (line : list fragment) (ops : list Op) : Result :=
  {| exit_status := 0; res_exn := None; res_db := db;
     res_stdout := [line]; res_trace := all_returned ops |}.

(** The database after the CREATE TABLE of the script. *)
Definition created (db : Database) : Database :=
  match db !! bitcoin_price with
  | Some _ => db
  | None => <[ bitcoin_price := {| tbl_columns := bitcoin_price_columns; tbl_rows := [] |} ]> db
  end.

(** [d[k]] with a string key. *)
Definition subscript (d : pyval) (k : string) : Outcome pyval :=
  match d with
  | PDict m =>
      match m !! k with
      | Some v => Ok v
      | None => Raise (KeyError k)
      end
  | _ => Raise TypeError
  end.

(** The API answered with a JSON body [data] such that
    [data['bitcoin']['usd']] is [v]. *)
Definition quoted (env : Env) (v : pyval) : Prop :=
  exists r data b,
    env_http env API_URL = Some r /\ json_body r = Some data /\
    subscript data "bitcoin" = Ok b /\ subscript b "usd" = Ok v.

(** ** The eight steps of the recorder *)

Inductive Step : Type :=
  | Fetch | Parse | Capture | Connect | EnsureSchema | Insert | Commit | Print.

#[global] Instance Step_eq_dec : EqDecision Step.
Proof. solve_decision. Defined.

(** The step a call belongs to: decoding and the two subscripts are the
    parse, the cursor belongs to the connection, and the two closes follow
    the commit within its step. *)
Definition step_of (op : Op) : Step :=
  match op with
  | OpGet _ => Fetch
  | OpJson | OpSubscript _ => Parse
  | OpNow _ => Capture
  | OpConnect _ | OpCursor _ => Connect
  | OpExecute _ (CreateTableIfNotExists _ _) => EnsureSchema
  | OpExecute _ (InsertOnConflictDoNothing _ _ _) => Insert
  | OpCommit _ | OpCursorClose _ | OpConnClose _ => Commit
  | OpPrint _ => Print
  end.

(** Consecutive calls of one step count once. *)
Fixpoint squash (l : list Step) : list Step :=
  match l with
  | [] => []
  | x :: l' =>
      match l' with
      | y :: _ => if decide (x = y) then squash l' else x :: squash l'
      | [] => [x]
      end
  end.

Definition steps (tr : list Event) : list Step :=
  squash (map (fun ev => step_of (fst ev)) tr).

Definition recorder_steps : list Step :=
  [ Fetch; Parse; Capture; Connect; EnsureSchema; Insert; Commit; Print ].

(** The calls that reach the database. *)
Definition db_call (op : Op) : bool :=
  match op with
  | OpConnect _ | OpCursor _ | OpExecute _ _ | OpCommit _
  | OpCursorClose _ | OpConnClose _ => true
  | _ => false
  end.

Definition is_commit (ev : Event) : bool :=
  match fst ev with OpCommit _ => true | _ => false end.


(** ** The standard output of the interpreter *)


(** ** Sample environments *)

(** 65000.5 as a binary64: 8933600695156736 * 2^-37. *)
Definition price_65000_5 : pyval :=
  PFloat (S754_finite false 8933600695156736 (-37)).

(** The body [{"bitcoin": {"usd": v}}], decoded. *)
Definition body_of (v : pyval) : pyval :=
  PDict {[ "bitcoin" := PDict {[ "usd" := v ]} ]}.

(** The body [{"bitcoin": {"usd": 65000.5}}], decoded. *)
Definition sample_body : pyval :=
  PDict {[ "bitcoin" := PDict {[ "usd" := price_65000_5 ]} ]}.

(** A rate-limit answer: JSON, but without the [bitcoin] key. *)
Definition rate_limited_body : pyval :=
  PDict {[ "status" := PDict {[ "error_code" := PInt 429 ]} ]}.

(** An environment in which the API answers with [body], the clock reads
    [clock], the database is reachable when [db_up], and nothing else
    fails. *)
Definition sample_env (body : pyval) (clock : Z) (db_up : bool) : Env :=
  {| env_http := fun url =>
       if decide (url = API_URL)
       then Some {| status_code := 200; json_body := Some body |}
       else None;
     env_clock := clock;
     env_connect := fun _ => db_up;
     env_refuses := fun _ _ => None;
     env_commit_ok := true;
     env_cursor_close_ok := true;
     env_conn_close_ok := true;
     env_stdout_ok := true |}.

Definition sample_clock : Z := 1700000000000000.

Definition sample_now : Timestamp :=
  {| ts_value := sample_clock; ts_tzinfo := None |}.

Definition sample_row : Row :=
  {| row_timestamp := sample_now;
     row_price_usd := SqlFloat8 (S754_finite false 8933600695156736 (-37)) |}.

(** A database in which the table is there and holds [sample_row]. *)
Definition sample_db : Database :=
  {[ bitcoin_price := {| tbl_columns := bitcoin_price_columns;
                         tbl_rows := [sample_row] |} ]}.


(** An environment like [sample_env sample_body sample_clock true], but
    the server refuses the INSERT, its disk being full. *)
Definition insert_refused_env : Env :=
  {| env_http := env_http (sample_env sample_body sample_clock true);
     env_clock := sample_clock;
     env_connect := fun _ => true;
     env_refuses := fun s _ =>
       match s with
       | InsertOnConflictDoNothing _ _ _ => Some OperationalError
       | CreateTableIfNotExists _ _ => None
       end;
     env_commit_ok := true;
     env_cursor_close_ok := true;
     env_conn_close_ok := true;
     env_stdout_ok := true |}.

(** The environment [env], but with the network answering as [http]. *)
Definition set_http (http : string -> option Response) (env : Env) : Env :=
  {| env_http := http;
     env_clock := env_clock env;
     env_connect := env_connect env;
     env_refuses := env_refuses env;
     env_commit_ok := env_commit_ok env;
     env_cursor_close_ok := env_cursor_close_ok env;
     env_conn_close_ok := env_conn_close_ok env;
     env_stdout_ok := env_stdout_ok env |}.


(** An environment like [sample_env sample_body sample_clock true], but
    with a standard output on which the write of [print] fails. *)
Definition stdout_failing_env : Env :=
  {| env_http := env_http (sample_env sample_body sample_clock true);
     env_clock := sample_clock;
     env_connect := fun _ => true;
     env_refuses := fun _ _ => None;
     env_commit_ok := true;
     env_cursor_close_ok := true;
     env_conn_close_ok := true;
     env_stdout_ok := false |}.

(** The API answering 429 with a body that all the same holds a quote and
    more: a second currency and the API's own timestamp. *)
Definition http_429_with_quote (url : string) : option Response :=
  if decide (url = API_URL)
  then Some {| status_code := 429;
               json_body := Some (PDict {[ "bitcoin" :=
                 PDict (<[ "last_updated_at" := PInt 1700000123 ]>
                        (<[ "eur" := PInt 60000 ]>
                         {[ "usd" := price_65000_5 ]})) ]}) |}
  else None.

(** ** Tactics *)

(** Split a conjunction into its members, and no further. *)
Ltac splits := repeat match goal with |- _ /\ _ => split end.

(** Membership in a log that is known call by call. *)
Ltac in_log H :=
  simpl in H; repeat (destruct H as [H | H]); try contradiction;
  try discriminate H; try (injection H; clear H; intros; subst).


(** ** The driver and the server *)

(** What the source does not tell of psycopg2 and of the server, taken as
    given: whether psycopg2 can quote a string (it cannot one that holds a
    NUL), what the input function of a type makes of a quoted string, and
    the error of the server for an array sent for a column that is not
    one. *)
Class Server : Type :=
  { quote_error : string -> option exn;
    text_in : sqltype -> string -> Outcome sqlvalue;
    array_error : sqltype -> list pyval -> exn }.

Section Recorder.

Context `{Server}.

(** The exception of psycopg2 when it cannot make a literal of a
    parameter: it has no adapter for a [dict]; a list is adapted item by
    item. *)
Fixpoint adapt_error (v : pyval) : option exn :=
  match v with
  | PDict _ => Some ProgrammingError
  | PStr s => quote_error s
  | PList l =>
      (fix first_error (l : list pyval) : option exn :=
         match l with
         | [] => None
         | x :: l' =>
             match adapt_error x with
             | Some e => Some e
             | None => first_error l'
             end
         end) l
  | _ => None
  end.

(** What the server makes of a parameter sent for a column of type [ty]:
    [None] is NULL for any type; a float is itself in a float8 column and
    an integer the nearest float8; a boolean fits neither type, nor does a
    number a TIMESTAMPTZ column. *)
Definition coerce (ty : sqltype) (v : pyval) : Outcome sqlvalue :=
  match v with
  | PNone => Ok SqlNull
  | PBool _ => Raise ProgrammingError
  | PInt z =>
      match ty with
      | FLOAT => float8_of_int z
      | TIMESTAMPTZ => Raise ProgrammingError
      end
  | PFloat f =>
      match ty with
      | FLOAT => Ok (SqlFloat8 f)
      | TIMESTAMPTZ => Raise ProgrammingError
      end
  | PStr s => text_in ty s
  | PList l => Raise (array_error ty l)
  | PDict _ => Raise ProgrammingError
  end.

(** The INSERT of the script on a table: both columns must be there, the
    timestamp sent must fit the type of [timestamp], the price that of
    [price_usd], and the primary key must be [timestamp] alone, for
    ON CONFLICT (timestamp) to name it.  The checks are in the order of the
    server. *)
Definition insert_into (t : Table) (ts : Timestamp) (price : pyval) : Outcome Table :=
  match find_column "timestamp" (tbl_columns t),
        find_column "price_usd" (tbl_columns t) with
  | Some ct, Some cp =>
      match col_type ct with
      | FLOAT => Raise ProgrammingError
      | TIMESTAMPTZ =>
          match coerce (col_type cp) price with
          | Raise e => Raise e
          | Ok p =>
              if decide (key_columns (tbl_columns t) = ["timestamp"%string])
              then Ok {| tbl_columns := tbl_columns t;
                         tbl_rows := insert_on_conflict_do_nothing ts p (tbl_rows t) |}
              else Raise ProgrammingError
          end
      end
  | _, _ => Raise ProgrammingError
  end.

(** What [cur.execute] makes of a statement on the database it runs
    against: psycopg2 adapts the parameters, the server runs the
    statement. *)
Definition exec_stmt (s : Stmt) (db : Database) : Outcome Database :=
  match s with
  | CreateTableIfNotExists name cols =>
      match db !! name with
      | Some _ => Ok db
      | None => Ok (<[ name := {| tbl_columns := cols; tbl_rows := [] |} ]> db)
      end
  | InsertOnConflictDoNothing name ts price =>
      match adapt_error price with
      | Some e => Raise e
      | None =>
          match db !! name with
          | None => Raise ProgrammingError
          | Some t =>
              match insert_into t ts price with
              | Ok t' => Ok (<[ name := t' ]> db)
              | Raise e => Raise e
              end
          end
      end
  end.

(** Statements run one after the other, stopping at the first error. *)
Fixpoint exec_many (ss : list Stmt) (db : Database) : Outcome Database :=
  match ss with
  | [] => Ok db
  | s :: ss' =>
      match exec_stmt s db with
      | Ok db' => exec_many ss' db'
      | Raise e => Raise e
      end
  end.

(** The database after the INSERT of the script, when it returns. *)
Definition inserted (ts : Timestamp) (v : pyval) (db : Database) : Database :=
  match exec_stmt (insert_row ts v) db with
  | Ok db' => db'
  | Raise _ => db
  end.

(** ** The monad *)

Definition M (A : Type) : Type := Env -> State -> Outcome A * State.

Definition ret {A} (a : A) : M A := fun _ st => (Ok a, st).

Definition raise {A} (e : exn) : M A := fun _ st => (Raise e, st).

Definition bind {A B} (m : M A) (k : A -> M B) : M B :=
  fun env st =>
    match m env st with
    | (Ok a, st') => k a env st'
    | (Raise e, st') => (Raise e, st')
    end.

Notation "x <- m ;; k" := (bind m (fun x => k))
  (at level 100, m at next level, right associativity).
Notation "m ;;; k" := (bind m (fun _ => k))
  (at level 100, right associativity).

(** ** The calls *)

(** [requests.get(url)]: any response is returned, whatever its status. *)
Definition requests_get (url : string) : M Response :=
  fun env st =>
    match env_http env url with
    | Some r => (Ok r, log (OpGet url) true st)
    | None => (Raise RequestException, log (OpGet url) false st)
    end.

(** [response.json()] *)
Definition Response_json (r : Response) : M pyval :=
  fun _ st =>
    match json_body r with
    | Some v => (Ok v, log OpJson true st)
    | None => (Raise JSONDecodeError, log OpJson false st)
    end.

Definition getitem (d : pyval) (k : string) : M pyval :=
  fun _ st =>
    match subscript d k with
    | Ok v => (Ok v, log (OpSubscript k) true st)
    | Raise e => (Raise e, log (OpSubscript k) false st)
    end.

(** [pd.Timestamp.now()]: called without [tz], so the result is naive. *)
Definition Timestamp_now : M Timestamp :=
  fun env st =>
    let t := {| ts_value := env_clock env; ts_tzinfo := None |} in
    (Ok t, log (OpNow t) true st).

(** [psycopg2.connect] with the settings as keywords: a new connection, whose view of the
    database starts from the committed state. *)
Definition psycopg2_connect (settings : DbSettings) : M nat :=
  fun env st =>
    if env_connect env settings then
      let c := st_next st in
      (Ok c,
       log (OpConnect settings) true
         {| st_db := st_db st; st_conns := <[ c := st_db st ]> (st_conns st);
            st_next := S c; st_stdout := st_stdout st; st_trace := st_trace st |})
    else (Raise OperationalError, log (OpConnect settings) false st).

(** A cursor is its connection. *)
Record Cursor : Type := { cur_conn : nat }.

Definition conn_cursor (conn : nat) : M Cursor :=
  fun _ st => (Ok {| cur_conn := conn |}, log (OpCursor conn) true st).

(** [cur.execute(stmt, params)]: runs in the transaction of the connection;
    nothing reaches the committed state.  psycopg2 and the planner of the
    server come first, with the errors of the statement itself; what the
    server refuses beyond them comes at execution. *)
Definition cur_execute (cur : Cursor) (s : Stmt) : M unit :=
  fun env st =>
    let c := cur_conn cur in
    match st_conns st !! c with
    | None => (Raise InterfaceError, log (OpExecute c s) false st)
    | Some view =>
        match exec_stmt s view with
        | Raise e => (Raise e, log (OpExecute c s) false st)
        | Ok view' =>
            match env_refuses env s view with
            | Some e => (Raise e, log (OpExecute c s) false st)
            | None =>
                (Ok tt, log (OpExecute c s) true (set_conns (<[ c := view' ]> (st_conns st)) st))
            end
        end
    end.

(** [conn.commit()]: the view of the connection becomes the committed state. *)
Definition conn_commit (conn : nat) : M unit :=
  fun env st =>
    match st_conns st !! conn with
    | None => (Raise InterfaceError, log (OpCommit conn) false st)
    | Some view =>
        if env_commit_ok env then
          (Ok tt,
           log (OpCommit conn) true
             {| st_db := view; st_conns := st_conns st; st_next := st_next st;
                st_stdout := st_stdout st; st_trace := st_trace st |})
        else (Raise DatabaseError, log (OpCommit conn) false st)
    end.

(** [cur.close()] *)
Definition cur_close (cur : Cursor) : M unit :=
  fun env st =>
    if env_cursor_close_ok env
    then (Ok tt, log (OpCursorClose (cur_conn cur)) true st)
    else (Raise InterfaceError, log (OpCursorClose (cur_conn cur)) false st).

(** [conn.close()]: the view, with whatever was not committed, is dropped. *)
Definition conn_close (conn : nat) : M unit :=
  fun env st =>
    if env_conn_close_ok env
    then (Ok tt, log (OpConnClose conn) true (set_conns (delete conn (st_conns st)) st))
    else (Raise InterfaceError, log (OpConnClose conn) false st).

(** [print(line)] *)
Definition print (line : list fragment) : M unit :=
  fun env st =>
    if env_stdout_ok env then
      (Ok tt,
       log (OpPrint line) true
         {| st_db := st_db st; st_conns := st_conns st; st_next := st_next st;
            st_stdout := st_stdout st ++ [line]; st_trace := st_trace st |})
    else (Raise OSError, log (OpPrint line) false st).

(** ** The script (lines 16-46) *)

Definition script : M unit :=
  response <- requests_get API_URL ;;
  data <- Response_json response ;;
  bitcoin <- getitem data "bitcoin" ;;
  price_usd <- getitem bitcoin "usd" ;;
  timestamp <- Timestamp_now ;;
  conn <- psycopg2_connect DB_SETTINGS ;;
  cur <- conn_cursor conn ;;
  cur_execute cur create_table ;;;
  cur_execute cur (insert_row timestamp price_usd) ;;;
  conn_commit conn ;;;
  cur_close cur ;;;
  conn_close conn ;;;
  print (confirmation price_usd timestamp).

(** ** One run of the script *)

Definition initial_state (db : Database) : State :=
  {| st_db := db; st_conns := ∅; st_next := 0%nat;
     st_stdout := []; st_trace := [] |}.

(** A run of the script under an interpreter that writes its standard
    output through: the exit status (an uncaught exception ends the
    interpreter with status 1), the exception if any, the committed
    database (connections still open are dropped with the process, and
    their views with them), the standard output and the log. *)
Definition run (env : Env) (db : Database) : Result :=
  let '(o, st) := script env (initial_state db) in
  {| exit_status := match o with Ok _ => 0 | Raise _ => 1 end;
     res_exn := match o with Ok _ => None | Raise e => Some e end;
     res_db := st_db st;
     res_stdout := st_stdout st;
     res_trace := st_trace st |}.


(** The state the script leaves when its last call has returned or raised,
    before the process ends. *)
Definition final_state (env : Env) (db : Database) : State :=
  snd (script env (initial_state db)).

(** One run after the other, one environment per invocation, each starting
    from the committed database the one before left. *)
Fixpoint runs (envs : list Env) (db : Database) : Database :=
  match envs with
  | [] => db
  | env :: envs' => runs envs' (res_db (run env db))
  end.

(** The two statements of the script return on [db], for the timestamp
    and price of the run. *)
Definition statements_return (env : Env) (db : Database) (v : pyval) : Prop :=
  env_refuses env create_table db = None /\
  exec_stmt (insert_row (now env) v) (created db)
  = Ok (inserted (now env) v (created db)) /\
  env_refuses env (insert_row (now env) v) (created db) = None.

(** The runs of the script, one case per call that can raise and one for
    the run in which none does.  [run_spec] below shows that [run] is in
    this relation for every environment and database. *)
Inductive RunSpec (env : Env) (db : Database) : Result -> Prop :=
  | RS_get :
      env_http env API_URL = None ->
      RunSpec env db (aborted RequestException db 0 ops_fetch)
  | RS_json r :
      env_http env API_URL = Some r -> json_body r = None ->
      RunSpec env db (aborted JSONDecodeError db 1 ops_fetch)
  | RS_bitcoin r data e :
      env_http env API_URL = Some r -> json_body r = Some data ->
      subscript data "bitcoin" = Raise e ->
      RunSpec env db (aborted e db 2 ops_fetch)
  | RS_usd r data b e :
      env_http env API_URL = Some r -> json_body r = Some data ->
      subscript data "bitcoin" = Ok b -> subscript b "usd" = Raise e ->
      RunSpec env db (aborted e db 3 ops_fetch)
  | RS_connect v :
      quoted env v ->
      env_connect env DB_SETTINGS = false ->
      RunSpec env db (aborted OperationalError db 5 (script_ops (now env) v))
  | RS_create v e :
      quoted env v ->
      env_connect env DB_SETTINGS = true ->
      env_refuses env create_table db = Some e ->
      RunSpec env db (aborted e db 7 (script_ops (now env) v))
  | RS_insert v e :
      quoted env v ->
      env_connect env DB_SETTINGS = true ->
      env_refuses env create_table db = None ->
      exec_stmt (insert_row (now env) v) (created db) = Raise e ->
      RunSpec env db (aborted e db 8 (script_ops (now env) v))
  | RS_insert_refused v e :
      quoted env v ->
      env_connect env DB_SETTINGS = true ->
      env_refuses env create_table db = None ->
      exec_stmt (insert_row (now env) v) (created db)
      = Ok (inserted (now env) v (created db)) ->
      env_refuses env (insert_row (now env) v) (created db) = Some e ->
      RunSpec env db (aborted e db 8 (script_ops (now env) v))
  | RS_commit v :
      quoted env v ->
      env_connect env DB_SETTINGS = true ->
      statements_return env db v ->
      env_commit_ok env = false ->
      RunSpec env db (aborted DatabaseError db 9 (script_ops (now env) v))
  | RS_cursor_close v :
      quoted env v ->
      env_connect env DB_SETTINGS = true ->
      statements_return env db v ->
      env_commit_ok env = true ->
      env_cursor_close_ok env = false ->
      RunSpec env db
        (aborted InterfaceError (inserted (now env) v (created db)) 10
           (script_ops (now env) v))
  | RS_conn_close v :
      quoted env v ->
      env_connect env DB_SETTINGS = true ->
      statements_return env db v ->
      env_commit_ok env = true ->
      env_cursor_close_ok env = true ->
      env_conn_close_ok env = false ->
      RunSpec env db
        (aborted InterfaceError (inserted (now env) v (created db)) 11
           (script_ops (now env) v))
  | RS_print v :
      quoted env v ->
      env_connect env DB_SETTINGS = true ->
      statements_return env db v ->
      env_commit_ok env = true ->
      env_cursor_close_ok env = true ->
      env_conn_close_ok env = true ->
      env_stdout_ok env = false ->
      RunSpec env db
        (aborted OSError (inserted (now env) v (created db)) 12
           (script_ops (now env) v))
  | RS_completed v :
      quoted env v ->
      env_connect env DB_SETTINGS = true ->
      statements_return env db v ->
      env_commit_ok env = true ->
      env_cursor_close_ok env = true ->
      env_conn_close_ok env = true ->
      env_stdout_ok env = true ->
      RunSpec env db
        (completed (inserted (now env) v (created db)) (confirmation v (now env))
           (script_ops (now env) v)).

(** * Statements *)

Lemma exec_create_table (db : Database) :
  exec_stmt create_table db = Ok (created db).
Proof.
  unfold create_table, created, exec_stmt.
  destruct (db !! bitcoin_price); reflexivity.
Qed.

Lemma created_lookup (db : Database) :
  exists t, created db !! bitcoin_price = Some t.
Proof.
  unfold created. destruct (db !! bitcoin_price) as [t|] eqn:E.
  - exists t. exact E.
  - eexists. apply lookup_insert_eq.
Qed.

Lemma created_present (db : Database) (t : Table) :
  db !! bitcoin_price = Some t -> created db = db.
Proof. intros E. unfold created. rewrite E. reflexivity. Qed.

Lemma created_other (db : Database) (name : string) :
  name <> bitcoin_price -> created db !! name = db !! name.
Proof.
  intros Hne. unfold created. destruct (db !! bitcoin_price); [reflexivity |].
  apply lookup_insert_ne. congruence.
Qed.

Lemma rows_of_created (db : Database) : rows_of (created db) = rows_of db.
Proof.
  unfold rows_of, created. destruct (db !! bitcoin_price) as [t|] eqn:E.
  - rewrite E. reflexivity.
  - rewrite lookup_insert_eq. reflexivity.
Qed.


(** An insert into a table that returns: the price fits the type of the
    price column, the key is the timestamp, and the rows are those of the
    conflict clause. *)
Lemma insert_into_Ok (t t' : Table) (ts : Timestamp) (v : pyval) :
  insert_into t ts v = Ok t' ->
  exists cp p,
    find_column "price_usd" (tbl_columns t) = Some cp /\
    coerce (col_type cp) v = Ok p /\
    key_columns (tbl_columns t) = ["timestamp"%string] /\
    t' = {| tbl_columns := tbl_columns t;
            tbl_rows := insert_on_conflict_do_nothing ts p (tbl_rows t) |}.
Proof.
  unfold insert_into.
  destruct (find_column "timestamp" (tbl_columns t)) as [ct|]; [| discriminate].
  destruct (find_column "price_usd" (tbl_columns t)) as [cp|]; [| discriminate].
  destruct (col_type ct); [| discriminate].
  destruct (coerce (col_type cp) v) as [p|e] eqn:Ec; [| discriminate].
  destruct (decide _) as [Hk|]; [| discriminate].
  intros E. injection E as <-. exists cp, p. auto.
Qed.

(** The same for the statement on a database. *)
Lemma exec_insert_Ok (ts : Timestamp) (v : pyval) (db db' : Database) :
  exec_stmt (insert_row ts v) db = Ok db' ->
  exists t ty p,
    db !! bitcoin_price = Some t /\
    adapt_error v = None /\
    coerce ty v = Ok p /\
    key_columns (tbl_columns t) = ["timestamp"%string] /\
    db' = <[ bitcoin_price :=
               {| tbl_columns := tbl_columns t;
                  tbl_rows := insert_on_conflict_do_nothing ts p (tbl_rows t) |} ]> db.
Proof.
  unfold insert_row, exec_stmt.
  destruct (adapt_error v) eqn:Ea; [discriminate |].
  destruct (db !! bitcoin_price) as [t|] eqn:E; [| discriminate].
  destruct (insert_into t ts v) as [t'|e] eqn:Ei; [| discriminate].
  intros E'. injection E' as <-.
  destruct (insert_into_Ok _ _ _ _ Ei) as (cp & p & _ & Hc & Hk & ->).
  exists t, (col_type cp), p. auto.
Qed.

Lemma inserted_Ok (ts : Timestamp) (v : pyval) (db db' : Database) :
  exec_stmt (insert_row ts v) db = Ok db' -> inserted ts v db = db'.
Proof. intros E. unfold inserted. rewrite E. reflexivity. Qed.

(** What [inserted] is, whether the INSERT returns or raises. *)
Lemma inserted_cases (ts : Timestamp) (v : pyval) (db : Database) :
  inserted ts v db = db \/
  exists t ty p,
    db !! bitcoin_price = Some t /\ coerce ty v = Ok p /\
    inserted ts v db
    = <[ bitcoin_price :=
           {| tbl_columns := tbl_columns t;
              tbl_rows := insert_on_conflict_do_nothing ts p (tbl_rows t) |} ]> db.
Proof.
  unfold inserted.
  destruct (exec_stmt (insert_row ts v) db) as [db'|e] eqn:E; [| left; reflexivity].
  right. destruct (exec_insert_Ok _ _ _ _ E) as (t & ty & p & Ht & _ & Hc & _ & ->).
  exists t, ty, p. auto.
Qed.

Lemma inserted_other (ts : Timestamp) (v : pyval) (db : Database) (name : string) :
  name <> bitcoin_price -> inserted ts v db !! name = db !! name.
Proof.
  intros Hne.
  destruct (inserted_cases ts v db) as [-> | (t & ty & p & _ & _ & ->)];
    [reflexivity |].
  apply lookup_insert_ne. congruence.
Qed.

Lemma inserted_columns (ts : Timestamp) (v : pyval) (db : Database) (t : Table) :
  db !! bitcoin_price = Some t ->
  exists t', inserted ts v db !! bitcoin_price = Some t' /\
             tbl_columns t' = tbl_columns t.
Proof.
  intros E.
  destruct (inserted_cases ts v db) as [-> | (t0 & ty & p & E0 & _ & ->)].
  - exists t. auto.
  - rewrite lookup_insert_eq. eexists. split; [reflexivity |].
    simpl. congruence.
Qed.

Lemma rows_of_inserted (ts : Timestamp) (v : pyval) (db : Database) :
  rows_of (inserted ts v db) = rows_of db \/
  exists ty p, coerce ty v = Ok p /\
    rows_of (inserted ts v db) = insert_on_conflict_do_nothing ts p (rows_of db).
Proof.
  destruct (inserted_cases ts v db) as [-> | (t & ty & p & E & Hc & ->)];
    [left; reflexivity |].
  right. exists ty, p. split; [exact Hc |].
  unfold rows_of. rewrite lookup_insert_eq, E. reflexivity.
Qed.

(** The rows after the two statements of the script. *)
Lemma rows_of_recorded (ts : Timestamp) (v : pyval) (db : Database) :
  rows_of (inserted ts v (created db)) = rows_of db \/
  exists ty p, coerce ty v = Ok p /\
    rows_of (inserted ts v (created db))
    = insert_on_conflict_do_nothing ts p (rows_of db).
Proof.
  destruct (rows_of_inserted ts v (created db)) as [E | (ty & p & Hc & E)];
    rewrite rows_of_created in E; [left; exact E |].
  right. exists ty, p. auto.
Qed.

(** When the INSERT returned, the rows are those of the conflict clause. *)
Lemma rows_of_recorded_Ok (ts : Timestamp) (v : pyval) (db : Database) :
  exec_stmt (insert_row ts v) (created db) = Ok (inserted ts v (created db)) ->
  exists ty p, coerce ty v = Ok p /\
    rows_of (inserted ts v (created db))
    = insert_on_conflict_do_nothing ts p (rows_of db).
Proof.
  intros E.
  destruct (exec_insert_Ok _ _ _ _ E) as (t & ty & p & Ht & _ & Hc & _ & E').
  exists ty, p. split; [exact Hc |].
  rewrite E'. unfold rows_of at 1. rewrite lookup_insert_eq. simpl.
  rewrite <- rows_of_created. unfold rows_of. rewrite Ht. reflexivity.
Qed.

Lemma exec_recorded (ts : Timestamp) (v : pyval) (db : Database) :
  exec_stmt (insert_row ts v) (created db) = Ok (inserted ts v (created db)) ->
  exec_many [create_table; insert_row ts v] db = Ok (inserted ts v (created db)).
Proof.
  intros E. cbn [exec_many]. rewrite exec_create_table, E. reflexivity.
Qed.

(** * Every run is one of the runs of [RunSpec] *)

Lemma run_spec (env : Env) (db : Database) : RunSpec env db (run env db).
Proof.
  unfold run, script, bind.
  unfold requests_get.
  destruct (env_http env API_URL) as [r|] eqn:Hhttp;
    [| exact (RS_get env db Hhttp)].
  unfold Response_json.
  destruct (json_body r) as [data|] eqn:Hjson;
    [| exact (RS_json env db r Hhttp Hjson)].
  unfold getitem at 1.
  destruct (subscript data "bitcoin") as [b|e] eqn:Hb;
    [| exact (RS_bitcoin env db r data e Hhttp Hjson Hb)].
  unfold getitem.
  destruct (subscript b "usd") as [v|e] eqn:Hv;
    [| exact (RS_usd env db r data b e Hhttp Hjson Hb Hv)].
  assert (Hq : quoted env v) by (exists r, data, b; auto).
  unfold Timestamp_now, psycopg2_connect. fold (now env).
  destruct (env_connect env DB_SETTINGS) eqn:Hconn;
    [| exact (RS_connect env db v Hq Hconn)].
  unfold conn_cursor, cur_execute at 1.
  cbn [cur_conn st_conns st_next st_db log initial_state].
  rewrite lookup_insert_eq, exec_create_table.
  destruct (env_refuses env create_table db) as [e|] eqn:Hc;
    [exact (RS_create env db v e Hq Hconn Hc) |].
  unfold cur_execute.
  cbn [cur_conn st_conns st_next st_db log set_conns].
  rewrite lookup_insert_eq.
  destruct (exec_stmt (insert_row (now env) v) (created db)) as [db'|e] eqn:Hx;
    [| exact (RS_insert env db v e Hq Hconn Hc Hx)].
  pose proof (inserted_Ok _ _ _ _ Hx) as Hin. subst db'.
  destruct (env_refuses env (insert_row (now env) v) (created db)) as [e|] eqn:Hi;
    [exact (RS_insert_refused env db v e Hq Hconn Hc Hx Hi) |].
  assert (Hs : statements_return env db v) by (repeat split; assumption).
  unfold conn_commit.
  cbn [cur_conn st_conns st_next st_db log set_conns].
  rewrite lookup_insert_eq.
  destruct (env_commit_ok env) eqn:Hcommit;
    [| exact (RS_commit env db v Hq Hconn Hs Hcommit)].
  unfold cur_close.
  destruct (env_cursor_close_ok env) eqn:Hcc;
    [| exact (RS_cursor_close env db v Hq Hconn Hs Hcommit Hcc)].
  unfold conn_close.
  destruct (env_conn_close_ok env) eqn:Hkc;
    [| exact (RS_conn_close env db v Hq Hconn Hs Hcommit Hcc Hkc)].
  unfold print.
  destruct (env_stdout_ok env) eqn:Hp;
    [ exact (RS_completed env db v Hq Hconn Hs Hcommit Hcc Hkc Hp)
    | exact (RS_print env db v Hq Hconn Hs Hcommit Hcc Hkc Hp) ].
Qed.

(** Case analysis on a run: one goal per constructor of [RunSpec]. *)
Ltac run_cases env db :=
  let R := fresh "R" in
  let HR := fresh "HR" in
  generalize (run_spec env db); generalize (run env db);
  intros R HR; destruct HR.

(** * Rows and the primary key *)

Lemma has_timestamp_In (ts : Timestamp) (rows : list Row) :
  has_timestamp ts rows = true <-> In ts (map row_timestamp rows).
Proof.
  unfold has_timestamp. induction rows as [|r rows IH]; simpl.
  - split; [discriminate | tauto].
  - rewrite orb_true_iff, IH, bool_decide_eq_true. tauto.
Qed.

Lemma has_timestamp_not_In (ts : Timestamp) (rows : list Row) :
  has_timestamp ts rows = false <-> ~ In ts (map row_timestamp rows).
Proof.
  rewrite <- has_timestamp_In. destruct (has_timestamp ts rows); split;
    congruence.
Qed.

(** The insert keeps the primary key, conflict or not. *)
Lemma insert_pk_unique (ts : Timestamp) (v : sqlvalue) (rows : list Row) :
  pk_unique rows -> pk_unique (insert_on_conflict_do_nothing ts v rows).
Proof.
  unfold pk_unique, insert_on_conflict_do_nothing. intros Hnd.
  destruct (has_timestamp ts rows) eqn:E; [exact Hnd |].
  apply has_timestamp_not_In in E.
  rewrite map_app. simpl.
  apply NoDup_app. split; [exact Hnd |]. split.
  - intros x Hx Hx'. apply list_elem_of_In in Hx, Hx'.
    destruct Hx' as [<- | []]. exact (E Hx).
  - apply NoDup_singleton.
Qed.


Lemma insert_In (ts : Timestamp) (v : sqlvalue) (rows : list Row) (r : Row) :
  In r (insert_on_conflict_do_nothing ts v rows) ->
  In r rows \/ r = {| row_timestamp := ts; row_price_usd := v |}.
Proof.
  unfold insert_on_conflict_do_nothing.
  destruct (has_timestamp ts rows); [tauto |].
  rewrite in_app_iff. simpl. intuition.
Qed.


Lemma insert_has_timestamp (ts : Timestamp) (v : sqlvalue) (rows : list Row) :
  has_timestamp ts (insert_on_conflict_do_nothing ts v rows) = true.
Proof.
  unfold insert_on_conflict_do_nothing.
  destruct (has_timestamp ts rows) eqn:E; [exact E |].
  apply has_timestamp_In. rewrite map_app, in_app_iff. simpl. tauto.
Qed.

(** * The quote *)

Lemma quoted_functional (env : Env) (v v' : pyval) :
  quoted env v -> quoted env v' -> v = v'.
Proof.
  intros (r & d & b & H1 & H2 & H3 & H4) (r' & d' & b' & H1' & H2' & H3' & H4').
  congruence.
Qed.

Lemma quoted_dict (env : Env) (r : Response) (d d' : gmap string pyval) (v : pyval) :
  env_http env API_URL = Some r -> json_body r = Some (PDict d) ->
  d !! "bitcoin" = Some (PDict d') -> d' !! "usd" = Some v ->
  quoted env v.
Proof.
  intros H1 H2 H3 H4. exists r, (PDict d), (PDict d').
  simpl. rewrite H3, H4. auto.
Qed.

(** A float fits a float8 column only, and is stored as it is. *)
Lemma coerce_float (ty : sqltype) (f : spec_float) (p : sqlvalue) :
  coerce ty (PFloat f) = Ok p -> p = SqlFloat8 f.
Proof. destruct ty; simpl; congruence. Qed.

(** An integer fits a float8 column only, as the nearest float8. *)
Lemma coerce_int (ty : sqltype) (z : Z) (p : sqlvalue) :
  coerce ty (PInt z) = Ok p -> float8_of_int z = Ok p.
Proof. destruct ty; simpl; congruence. Qed.

(** The INSERT on a table with the columns the script declares. *)
Lemma insert_into_declared (t : Table) (ts : Timestamp) (v : pyval) (p : sqlvalue) :
  tbl_columns t = bitcoin_price_columns ->
  coerce FLOAT v = Ok p ->
  insert_into t ts v
  = Ok {| tbl_columns := tbl_columns t;
          tbl_rows := insert_on_conflict_do_nothing ts p (tbl_rows t) |}.
Proof.
  intros Hc Hp. unfold insert_into. rewrite Hc.
  change (find_column "timestamp" bitcoin_price_columns)
    with (Some {| col_name := "timestamp"; col_type := TIMESTAMPTZ;
                  col_primary_key := true |}).
  change (find_column "price_usd" bitcoin_price_columns)
    with (Some {| col_name := "price_usd"; col_type := FLOAT;
                  col_primary_key := false |}).
  cbn [col_type]. rewrite Hp.
  rewrite decide_True by reflexivity. reflexivity.
Qed.

(** What one run does to the committed database: nothing, or what the two
    statements do. *)
Lemma run_db (env : Env) (db : Database) :
  (res_db (run env db) = db /\
   ~ In (returned (OpCommit 0)) (res_trace (run env db))) \/
  (exists v, quoted env v /\
     statements_return env db v /\
     res_db (run env db) = inserted (now env) v (created db) /\
     In (returned (OpCommit 0)) (res_trace (run env db))).
Proof.
  run_cases env db.
  all: try (left; split; [reflexivity | intros Hin; in_log Hin]).
  all: right; eexists; split; [eassumption |];
       split; [eassumption |]; split; [reflexivity | simpl; tauto].
Qed.

Lemma run_exit_0 (env : Env) (db : Database) :
  exit_status (run env db) = 0 ->
  exists v, quoted env v /\
    statements_return env db v /\
    run env db = completed (inserted (now env) v (created db))
                   (confirmation v (now env)) (script_ops (now env) v).
Proof.
  run_cases env db; try (intros Hexit; discriminate Hexit).
  intros _. eexists. split; [eassumption |]. split; [eassumption | reflexivity].
Qed.

(** What one run does to the rows: nothing, or one row at the end, with
    the captured timestamp and the price as a column stores it. *)
Lemma run_rows (env : Env) (db : Database) :
  rows_of (res_db (run env db)) = rows_of db \/
  exists v ty p, quoted env v /\ coerce ty v = Ok p /\
    has_timestamp (now env) (rows_of db) = false /\
    In (returned (OpCommit 0)) (res_trace (run env db)) /\
    rows_of (res_db (run env db))
    = rows_of db ++ [ {| row_timestamp := now env; row_price_usd := p |} ].
Proof.
  destruct (run_db env db) as [[-> _] | (v & Hq & (_ & Hx & _) & -> & Hc)];
    [left; reflexivity |].
  destruct (rows_of_recorded_Ok _ _ _ Hx) as (ty & p & Hp & ->).
  unfold insert_on_conflict_do_nothing.
  destruct (has_timestamp (now env) (rows_of db)) eqn:E; [left; reflexivity |].
  right. exists v, ty, p. auto.
Qed.

(** * The claims *)

(** C1, amended.  When the JSON body of the API response is an object
    whose [bitcoin] entry is an object whose [usd] entry is [v], the
    INSERT of the run is issued with [v] itself as its price; every row
    the run adds to [bitcoin_price] has the captured timestamp and the
    price a column makes of [v]: for a float [v], [v] itself, and for an
    integer [v], the float8 nearest to it; and a run that commits without
    a conflict on the timestamp leaves exactly the former rows followed by
    that row. *)
Theorem price_passes_through
    (env : Env) (db : Database) (r : Response)
    (d d' : gmap string pyval) (v : pyval) :
  env_http env API_URL = Some r ->
  json_body r = Some (PDict d) ->
  d !! "bitcoin" = Some (PDict d') ->
  d' !! "usd" = Some v ->
  (forall c name ts p ok,
      In (OpExecute c (InsertOnConflictDoNothing name ts p), ok)
         (res_trace (run env db)) -> p = v) /\
  (forall x, In x (rows_of (res_db (run env db))) ->
      In x (rows_of db) \/
      (row_timestamp x = now env /\
       exists ty, coerce ty v = Ok (row_price_usd x))) /\
  (forall f, v = PFloat f ->
   forall x, In x (rows_of (res_db (run env db))) ->
      In x (rows_of db) \/
      x = {| row_timestamp := now env; row_price_usd := SqlFloat8 f |}) /\
  (forall z, v = PInt z ->
   forall x, In x (rows_of (res_db (run env db))) ->
      In x (rows_of db) \/
      (row_timestamp x = now env /\ float8_of_int z = Ok (row_price_usd x))) /\
  (In (returned (OpCommit 0)) (res_trace (run env db)) ->
   has_timestamp (now env) (rows_of db) = false ->
   exists ty p, coerce ty v = Ok p /\
     rows_of (res_db (run env db))
     = rows_of db ++ [ {| row_timestamp := now env; row_price_usd := p |} ]).
Proof.
  intros H1 H2 H3 H4.
  pose proof (quoted_dict _ _ _ _ _ H1 H2 H3 H4) as Hq.
  assert (Hrows : forall x, In x (rows_of (res_db (run env db))) ->
            In x (rows_of db) \/
            (row_timestamp x = now env /\
             exists ty, coerce ty v = Ok (row_price_usd x))).
  { intros x Hin.
    destruct (run_rows env db) as [E | (v0 & ty & p & Hq0 & Hp & _ & _ & E)];
      rewrite E in Hin; [left; exact Hin |].
    rewrite (quoted_functional _ _ _ Hq0 Hq) in Hp.
    apply in_app_iff in Hin as [Hin | [<- | []]]; [left; exact Hin |].
    right. split; [reflexivity | exists ty; exact Hp]. }
  splits.
  - intros c name ts p ok.
    run_cases env db;
      try match goal with
          | H : quoted env ?v0 |- _ =>
              pose proof (quoted_functional _ _ _ Hq H); subst v0
          end;
      intros Hin; in_log Hin; reflexivity.
  - exact Hrows.
  - intros f -> x Hin.
    destruct (Hrows x Hin) as [Hold | [Hts (ty & Hp)]]; [left; exact Hold |].
    right. apply coerce_float in Hp. destruct x. simpl in *. congruence.
  - intros z -> x Hin.
    destruct (Hrows x Hin) as [Hold | [Hts (ty & Hp)]]; [left; exact Hold |].
    right. split; [exact Hts | exact (coerce_int _ _ _ Hp)].
  - intros Hcommit Hfree.
    destruct (run_db env db) as [[_ Hn] | (v0 & Hq0 & (_ & Hx & _) & E & _)];
      [destruct (Hn Hcommit) |].
    rewrite (quoted_functional _ _ _ Hq0 Hq) in *.
    destruct (rows_of_recorded_Ok _ _ _ Hx) as (ty & p & Hp & E').
    exists ty, p. split; [exact Hp |].
    rewrite E, E'. unfold insert_on_conflict_do_nothing. rewrite Hfree.
    reflexivity.
Qed.


(** C3.  When the JSON body is an object without the [bitcoin] key, or one
    whose [bitcoin] entry is an object without the [usd] key, the run ends
    with an uncaught [KeyError] and exit status 1, no call to the database
    is in its log (no connection, no statement, no commit), the committed
    database is as it was and nothing is printed. *)
Theorem missing_key_aborts_before_database
    (env : Env) (db : Database) (r : Response) (d : gmap string pyval) :
  env_http env API_URL = Some r ->
  json_body r = Some (PDict d) ->
  (d !! "bitcoin" = None \/
   exists d', d !! "bitcoin" = Some (PDict d') /\ d' !! "usd" = None) ->
  (exists k, res_exn (run env db) = Some (KeyError k)) /\
  exit_status (run env db) = 1 /\
  res_db (run env db) = db /\
  res_stdout (run env db) = [] /\
  (forall op ok, In (op, ok) (res_trace (run env db)) -> db_call op = false).
Proof.
  intros H1 H2 Hlack.
  assert (Hnq : forall v, ~ quoted env v).
  { intros v (r0 & d0 & b0 & G1 & G2 & G3 & G4).
    rewrite H1 in G1. injection G1 as <-.
    rewrite H2 in G2. injection G2 as <-.
    simpl in G3. destruct Hlack as [Hb | (d' & Hb & Hu)]; rewrite Hb in G3.
    - discriminate.
    - injection G3 as <-. simpl in G4. rewrite Hu in G4. discriminate. }
  run_cases env db;
    try match goal with H : quoted env _ |- _ => destruct (Hnq _ H) end;
    try congruence.
  - (* data['bitcoin'] raises *)
    match goal with
    | Hj : json_body _ = Some ?data, Hs : subscript ?data "bitcoin" = Raise _ |- _ =>
        assert (data = PDict d) as -> by congruence; simpl in Hs;
        destruct Hlack as [Hb | (d' & Hb & Hu)]; rewrite Hb in Hs;
        [injection Hs as <- | discriminate Hs]
    end.
    splits; eauto.
    intros op ok Hin. in_log Hin; reflexivity.
  - (* data['bitcoin']['usd'] raises *)
    match goal with
    | Hj : json_body _ = Some ?data, Hs : subscript ?data "bitcoin" = Ok _,
      Hs' : subscript _ "usd" = Raise _ |- _ =>
        assert (data = PDict d) as -> by congruence; simpl in Hs;
        destruct Hlack as [Hb | (d' & Hb & Hu)]; rewrite Hb in Hs;
        [discriminate Hs | injection Hs as <-];
        simpl in Hs'; rewrite Hu in Hs'; injection Hs' as <-
    end.
    splits; eauto.
    intros op ok Hin. in_log Hin; reflexivity.
Qed.

(** C4.  When the server does not accept the connection, the run ends with
    exit status 1, the committed database as it was and nothing printed;
    and when the quote was obtained, so that the connection is attempted,
    the exception is the connection error and the log is the six calls up
    to the failed [connect], the HTTP call first. *)
Theorem unreachable_database_aborts (env : Env) (db : Database) :
  env_connect env DB_SETTINGS = false ->
  exit_status (run env db) = 1 /\
  res_db (run env db) = db /\
  res_stdout (run env db) = [] /\
  (forall line ok, ~ In (OpPrint line, ok) (res_trace (run env db))) /\
  (forall v, quoted env v ->
     res_exn (run env db) = Some OperationalError /\
     res_trace (run env db) = failed_at 5 (script_ops (now env) v)).
Proof.
  intros Hdown. run_cases env db; try congruence.
  all: splits; try reflexivity.
  all: try (intros line ok Hin; in_log Hin).
  all: try (intros w (r0 & d0 & b0 & G1 & G2 & G3 & G4); congruence).
  all: intros w Hw;
       match goal with
       | Hq : quoted _ ?v0 |- _ => rewrite (quoted_functional _ _ _ Hw Hq)
       end; split; reflexivity.
Qed.

Lemma recorded_columns (ts : Timestamp) (v : pyval) (db : Database) :
  db !! bitcoin_price = None ->
  exists t, inserted ts v (created db) !! bitcoin_price = Some t /\
            tbl_columns t = bitcoin_price_columns.
Proof.
  intros E.
  apply (inserted_columns ts v (created db)
           {| tbl_columns := bitcoin_price_columns; tbl_rows := [] |}).
  unfold created. rewrite E. apply lookup_insert_eq.
Qed.

(** The two statements keep the primary key. *)
Lemma recorded_pk_unique (ts : Timestamp) (v : pyval) (db : Database) :
  pk_unique (rows_of db) -> pk_unique (rows_of (inserted ts v (created db))).
Proof.
  intros Hpk.
  destruct (rows_of_recorded ts v db) as [-> | (ty & p & _ & ->)];
    [exact Hpk | apply insert_pk_unique, Hpk].
Qed.

(** The rows the two statements add have the timestamp sent. *)
Lemma recorded_In (ts : Timestamp) (v : pyval) (db : Database) (x : Row) :
  In x (rows_of (inserted ts v (created db))) ->
  In x (rows_of db) \/ row_timestamp x = ts.
Proof.
  intros Hin.
  destruct (rows_of_recorded ts v db) as [E | (ty & p & _ & E)];
    rewrite E in Hin; [left; exact Hin |].
  apply insert_In in Hin as [Hin | ->]; [left; exact Hin | right; reflexivity].
Qed.

Lemma recorded_has_timestamp (ts : Timestamp) (v : pyval) (db : Database) :
  exec_stmt (insert_row ts v) (created db) = Ok (inserted ts v (created db)) ->
  has_timestamp ts (rows_of (inserted ts v (created db))) = true.
Proof.
  intros E. destruct (rows_of_recorded_Ok _ _ _ E) as (ty & p & _ & ->).
  apply insert_has_timestamp.
Qed.

(** C5, amended.  The timestamp captured in a run is the reading of the
    local clock without a time zone (a naive timestamp), and that is the
    value the INSERT sends; the table the script declares has [timestamp]
    as a TIMESTAMPTZ column and as its only primary-key column, and a run
    that commits into a database without the table leaves the table with
    these columns; every run keeps the key: if no two rows shared a
    timestamp before the run, no two do after it. *)
Theorem timestamp_is_naive_primary_key (env : Env) (db : Database) :
  (forall t ok, In (OpNow t, ok) (res_trace (run env db)) ->
     tz_aware t = false /\ ts_value t = env_clock env) /\
  (forall c name ts p ok,
     In (OpExecute c (InsertOnConflictDoNothing name ts p), ok)
        (res_trace (run env db)) ->
     tz_aware ts = false /\ ts_value ts = env_clock env) /\
  (forall c name cols ok,
     In (OpExecute c (CreateTableIfNotExists name cols), ok)
        (res_trace (run env db)) ->
     name = bitcoin_price /\
     filter (fun col => col_primary_key col = true) cols
     = [ {| col_name := "timestamp"; col_type := TIMESTAMPTZ;
            col_primary_key := true |} ]) /\
  (db !! bitcoin_price = None ->
   In (returned (OpCommit 0)) (res_trace (run env db)) ->
   exists t, res_db (run env db) !! bitcoin_price = Some t /\
             tbl_columns t = bitcoin_price_columns) /\
  (pk_unique (rows_of db) -> pk_unique (rows_of (res_db (run env db)))).
Proof.
  run_cases env db; splits.
  all: try (intros t ok Hin; in_log Hin; split; reflexivity).
  all: try (intros c name ts p ok Hin; in_log Hin; split; reflexivity).
  all: try (intros c name cols ok Hin; in_log Hin; split; reflexivity).
  all: try solve [intros _ Hin; in_log Hin].
  all: try (intros Hpk; exact Hpk).
  all: try (intros Hnone _; apply recorded_columns, Hnone).
  all: intros Hpk; simpl res_db; apply recorded_pk_unique, Hpk.
Qed.

(** C6.  The steps of a run, in the order of its log, are an initial part
    of fetch, parse, capture, connect, ensure-schema, insert, commit,
    print, and all eight when the run exits with status 0, where the log
    is the thirteen calls of the script in the order of the source.  The
    clock is read only after the request, the decoding and the two
    subscripts have returned; the timestamp read, the one the INSERT
    sends, and the one of every row the run adds is the reading of the
    local clock, whatever the response holds. *)
Theorem steps_in_fixed_order (env : Env) (db : Database) :
  steps (res_trace (run env db)) `prefix_of` recorder_steps /\
  (exit_status (run env db) = 0 ->
   steps (res_trace (run env db)) = recorder_steps /\
   exists v, quoted env v /\
     res_trace (run env db) = all_returned (script_ops (now env) v)) /\
  (forall t ok, In (OpNow t, ok) (res_trace (run env db)) ->
     t = {| ts_value := env_clock env; ts_tzinfo := None |} /\
     take 5 (res_trace (run env db)) = all_returned (ops_fetch ++ [OpNow t]) /\
     exists v, quoted env v) /\
  (forall c name ts p ok,
     In (OpExecute c (InsertOnConflictDoNothing name ts p), ok)
        (res_trace (run env db)) ->
     ts = {| ts_value := env_clock env; ts_tzinfo := None |}) /\
  (forall x, In x (rows_of (res_db (run env db))) ->
     In x (rows_of db) \/
     row_timestamp x = {| ts_value := env_clock env; ts_tzinfo := None |}).
Proof.
  run_cases env db; splits.
  all: try (eexists; cbv; reflexivity).
  all: try (intros Hexit; discriminate Hexit).
  all: try (intros _; split; [reflexivity | eexists; split; [eassumption | reflexivity]]).
  all: try (intros t ok Hin; in_log Hin; splits; try reflexivity; eexists; eassumption).
  all: try (intros c name ts p ok Hin; in_log Hin; reflexivity).
  all: try (intros x Hin; left; exact Hin).
  all: intros x Hin; simpl res_db in Hin; exact (recorded_In _ _ _ _ Hin).
Qed.

(** C7.  CREATE TABLE IF NOT EXISTS, run any number of times against a
    database in which [bitcoin_price] exists (with the declared columns or
    any others), returns without an error each time and leaves the
    database, its catalogue and rows, as it was. *)
Theorem create_table_idempotent (db : Database) (t : Table) (n : nat) :
  db !! bitcoin_price = Some t ->
  exec_many (replicate n create_table) db = Ok db.
Proof.
  intros E. induction n as [|n IH]; [reflexivity |].
  cbn [replicate exec_many].
  rewrite exec_create_table, (created_present _ _ E). exact IH.
Qed.



(** C9.  Every statement and the commit of a run go through one
    connection, the one [connect] returned; there is at most one commit,
    it is the tenth call, and the nine before it, both statements among
    them, have returned.  A run in which no commit returned leaves the
    committed database as it was: neither the table nor the row is there
    unless it was before. *)
Theorem nothing_committed_before_commit (env : Env) (db : Database) :
  (forall c s ok, In (OpExecute c s, ok) (res_trace (run env db)) -> c = 0%nat) /\
  (forall c ok, In (OpCommit c, ok) (res_trace (run env db)) ->
     c = 0%nat /\
     exists v, quoted env v /\
       res_trace (run env db)
       = all_returned (take 9 (script_ops (now env) v))
         ++ (OpCommit 0, ok) :: drop 10 (res_trace (run env db)) /\
       In (OpExecute 0 create_table) (take 9 (script_ops (now env) v)) /\
       In (OpExecute 0 (insert_row (now env) v)) (take 9 (script_ops (now env) v))) /\
  (length (List.filter is_commit (res_trace (run env db))) <= 1)%nat /\
  ((forall c, ~ In (returned (OpCommit c)) (res_trace (run env db))) ->
   exit_status (run env db) = 1 /\ res_db (run env db) = db).
Proof.
  run_cases env db; splits.
  all: try (intros c s ok Hin; in_log Hin; reflexivity).
  all: try (intros c ok Hin; in_log Hin;
            (split; [reflexivity |];
             eexists; split; [eassumption |];
             splits; [reflexivity | simpl; tauto | simpl; tauto])).
  all: try (simpl; lia).
  all: try (intros _; split; reflexivity).
  all: intros Hnone; exfalso; apply (Hnone 0%nat); simpl; tauto.
Qed.

(** C10.  The print is the last call of a run in which it is made, and
    the twelve calls before it, the commit and the two closes among them,
    have returned.  When a line is on the standard output, it is the one
    confirmation line, of the quoted price and the captured timestamp,
    and the committed database is the one the two statements of the
    script make of the database the run started from: it holds a row
    with the captured timestamp. *)
Theorem confirmation_after_commit (env : Env) (db : Database) :
  (forall line ok, In (OpPrint line, ok) (res_trace (run env db)) ->
     last (res_trace (run env db)) = Some (OpPrint line, ok) /\
     exists v, quoted env v /\
       line = confirmation v (now env) /\
       res_trace (run env db)
       = all_returned (take 12 (script_ops (now env) v)) ++ [(OpPrint line, ok)] /\
       In (OpCommit 0) (take 12 (script_ops (now env) v)) /\
       In (OpCursorClose 0) (take 12 (script_ops (now env) v)) /\
       In (OpConnClose 0) (take 12 (script_ops (now env) v))) /\
  (res_stdout (run env db) <> [] ->
   exists v, quoted env v /\
     res_stdout (run env db) = [confirmation v (now env)] /\
     In (returned (OpCommit 0)) (res_trace (run env db)) /\
     exec_many [create_table; insert_row (now env) v] db = Ok (res_db (run env db)) /\
     has_timestamp (now env) (rows_of (res_db (run env db))) = true).
Proof.
  run_cases env db;
    try match goal with
        | Hs : statements_return _ _ _ |- _ => destruct Hs as (Hs1 & Hs2 & Hs3)
        end;
    splits.
  all: try (intros line ok Hin; in_log Hin;
            (split; [reflexivity |];
             eexists; split; [eassumption |];
             splits; [reflexivity | reflexivity | simpl; tauto ..])).
  all: try (intros Hout; exfalso; apply Hout; reflexivity).
  all: intros _; eexists; split; [eassumption |];
       splits;
       [ reflexivity
       | simpl; tauto
       | apply exec_recorded, Hs2
       | simpl res_db; apply recorded_has_timestamp, Hs2 ].
Qed.

(** * More on the runs *)

Lemma run_trace (env : Env) (db : Database) :
  res_trace (run env db) = st_trace (final_state env db).
Proof.
  unfold run, final_state. destruct (script env (initial_state db)) as [o st].
  reflexivity.
Qed.


(** X1.  Over any number of runs, one after the other, the rows of
    [bitcoin_price] only grow at the end: the rows there were stay, in
    their order and with their prices, in front of the rows added; at most
    one row is added per run; and the primary key is kept. *)
Theorem runs_append_only (envs : list Env) (db : Database) :
  rows_of db `prefix_of` rows_of (runs envs db) /\
  (length (rows_of (runs envs db)) <= length (rows_of db) + length envs)%nat /\
  (pk_unique (rows_of db) -> pk_unique (rows_of (runs envs db))).
Proof.
  revert db. induction envs as [|env envs IH]; intros db; simpl.
  - split; [reflexivity |]. split; [lia | tauto].
  - destruct (IH (res_db (run env db))) as (Hpre & Hlen & Hpk).
    assert (Hstep : rows_of db `prefix_of` rows_of (res_db (run env db)) /\
                    (length (rows_of (res_db (run env db)))
                     <= S (length (rows_of db)))%nat /\
                    (pk_unique (rows_of db) ->
                     pk_unique (rows_of (res_db (run env db))))).
    { destruct (run_rows env db) as [-> | (v & ty & p & _ & _ & Hfree & _ & E)].
      - split; [reflexivity |]. split; [lia | tauto].
      - rewrite E. split; [apply prefix_app_r; reflexivity |].
        split; [rewrite length_app; simpl; lia |].
        intros Hnd.
        pose proof (insert_pk_unique (now env) p _ Hnd) as Hnd'.
        unfold insert_on_conflict_do_nothing in Hnd'.
        rewrite Hfree in Hnd'. exact Hnd'. }
    destruct Hstep as (Hpre1 & Hlen1 & Hpk1).
    split; [etrans; eassumption |]. split; [lia | auto].
Qed.

(** X2.  Over any number of runs, every table other than [bitcoin_price]
    is left as it was, and a [bitcoin_price] that was there keeps its
    columns: the script never alters a schema it finds. *)
Theorem runs_leave_catalogue (envs : list Env) (db : Database) :
  (forall name, name <> bitcoin_price -> runs envs db !! name = db !! name) /\
  (forall t, db !! bitcoin_price = Some t ->
     exists t', runs envs db !! bitcoin_price = Some t' /\
                tbl_columns t' = tbl_columns t).
Proof.
  revert db. induction envs as [|env envs IH]; intros db; simpl.
  - split; [reflexivity |]. intros t E. exists t. auto.
  - destruct (IH (res_db (run env db))) as (Hother & Hcols).
    destruct (run_db env db) as [[E _] | (v & _ & _ & E & _)]; rewrite E in *.
    + split; assumption.
    + split.
      * intros name Hne. rewrite (Hother name Hne).
        rewrite inserted_other, created_other by exact Hne. reflexivity.
      * intros t Ht.
        destruct (inserted_columns (now env) v db t Ht) as (t1 & Ht1 & Hc1).
        rewrite (created_present _ _ Ht) in Hcols |- *.
        destruct (Hcols _ Ht1) as (t' & Ht' & Hc).
        exists t'. split; [exact Ht' | congruence].
Qed.


(** X5.  A run uses the response through [data['bitcoin']['usd']] and
    nothing else: with any other answer of the network that yields the
    same quote (another status code, more keys, the API's own timestamp),
    the run is the same, log, exit status, output and database. *)
Theorem run_depends_on_quote_only
    (env : Env) (http : string -> option Response) (db : Database) (v : pyval) :
  quoted env v ->
  quoted (set_http http env) v ->
  run (set_http http env) db = run env db.
Proof.
  intros Hq Hq'.
  assert (F : forall w, quoted env w -> w = v)
    by (intros w Hw; exact (quoted_functional _ _ _ Hw Hq)).
  assert (F' : forall w, quoted (set_http http env) w -> w = v)
    by (intros w Hw; exact (quoted_functional _ _ _ Hw Hq')).
  destruct Hq as (r & d & b & G1 & G2 & G3 & G4).
  destruct Hq' as (r' & d' & b' & G1' & G2' & G3' & G4').
  run_cases env db;
    try match goal with H : quoted env _ |- _ => apply F in H; subst end;
    try congruence;
    run_cases (set_http http env) db;
    try match goal with H : quoted (set_http http env) _ |- _ =>
          apply F' in H; subst end;
    try congruence;
    unfold statements_return, now in *;
    cbn [set_http env_http env_clock env_connect env_refuses
         env_commit_ok env_cursor_close_ok env_conn_close_ok
         env_stdout_ok] in *;
    repeat match goal with H : _ /\ _ |- _ => destruct H end;
    try congruence; reflexivity.
Qed.

(** X6.  When the response yields no quote (the request fails, the body
    is not JSON, or a subscript raises), the run stops within lines 16-20:
    it exits with status 1, its log is an initial part of the request, the
    decoding and the two subscripts, so the clock is not read and the
    database is not called, and the database and the standard output are
    as they were. *)
Theorem no_quote_stops_at_parse (env : Env) (db : Database) :
  (forall v, ~ quoted env v) ->
  exit_status (run env db) = 1 /\
  res_db (run env db) = db /\
  res_stdout (run env db) = [] /\
  (exists k, (k < 4)%nat /\ res_trace (run env db) = failed_at k ops_fetch) /\
  (forall op ok, In (op, ok) (res_trace (run env db)) ->
     db_call op = false /\ forall t, op <> OpNow t).
Proof.
  intros Hnq.
  run_cases env db;
    try match goal with H : quoted _ _ |- _ => destruct (Hnq _ H) end.
  all: splits; try reflexivity.
  all: try (eexists; split; [| reflexivity]; lia).
  all: intros op ok Hin; in_log Hin; (split; [reflexivity | discriminate]).
Qed.

(** X7.  A JSON body that is not an object (an array, a string, a number,
    a boolean, null) ends the run with an uncaught [TypeError], not a
    [KeyError], at the first subscript; an object whose [bitcoin] entry is
    not an object does so at the second. *)
Theorem non_object_raises_type_error
    (env : Env) (db : Database) (r : Response) (data : pyval) :
  env_http env API_URL = Some r ->
  json_body r = Some data ->
  ((forall d, data <> PDict d) ->
   res_exn (run env db) = Some TypeError /\
   res_trace (run env db) = failed_at 2 ops_fetch) /\
  (forall d b, data = PDict d -> d !! "bitcoin" = Some b ->
     (forall d', b <> PDict d') ->
     res_exn (run env db) = Some TypeError /\
     res_trace (run env db) = failed_at 3 ops_fetch).
Proof.
  intros H1 H2.
  assert (Hsub : forall x k, (forall d, x <> PDict d) -> subscript x k = Raise TypeError).
  { intros x k Hx. destruct x; try reflexivity. destruct (Hx d eq_refl). }
  assert (Hnq1 : (forall d, data <> PDict d) -> forall v, ~ quoted env v).
  { intros Hx v (r0 & d0 & b0 & G1 & G2 & G3 & G4).
    assert (d0 = data) as -> by congruence.
    rewrite (Hsub _ _ Hx) in G3. discriminate. }
  assert (Hnq2 : forall d b, data = PDict d -> d !! "bitcoin" = Some b ->
                   (forall d', b <> PDict d') -> forall v, ~ quoted env v).
  { intros d b -> Hb Hx v (r0 & d0 & b0 & G1 & G2 & G3 & G4).
    assert (d0 = PDict d) as -> by congruence.
    simpl in G3. rewrite Hb in G3. injection G3 as <-.
    rewrite (Hsub _ _ Hx) in G4. discriminate. }
  split.
  - intros Hx. revert Hx.
    run_cases env db; intros Hx;
      try match goal with H : quoted _ _ |- _ => destruct (Hnq1 Hx _ H) end;
      try congruence;
      match goal with
      | H : json_body _ = Some ?x |- _ => assert (x = data) as -> by congruence
      end;
      rewrite (Hsub _ _ Hx) in *.
    + split; [simpl; congruence | reflexivity].
    + congruence.
  - intros d b Hd Hb Hx. revert Hd Hb Hx.
    run_cases env db; intros Hd Hb Hx;
      try match goal with H : quoted _ _ |- _ => destruct (Hnq2 _ _ Hd Hb Hx _ H) end;
      try congruence;
      match goal with
      | H : json_body _ = Some ?x |- _ => assert (x = PDict d) as -> by congruence
      end.
    + match goal with H : subscript (PDict d) _ = Raise _ |- _ =>
        simpl in H; rewrite Hb in H; discriminate H end.
    + match goal with H : subscript (PDict d) _ = Ok _ |- _ =>
        simpl in H; rewrite Hb in H; injection H as <- end.
      match goal with H : subscript b _ = Raise _ |- _ =>
        rewrite (Hsub _ _ Hx) in H; injection H as <- end.
      split; reflexivity.
Qed.

(** X8.  An exit status of 1 does not mean that nothing was written: when
    the commit has returned and a later call raises (a close, or the
    print), the run exits with status 1 and prints nothing, yet the
    committed database is the one the two statements make, with a row of
    the captured timestamp. *)
Theorem committed_despite_exit_1 (env : Env) (db : Database) :
  In (returned (OpCommit 0)) (res_trace (run env db)) ->
  exit_status (run env db) = 1 ->
  res_stdout (run env db) = [] /\
  (res_exn (run env db) = Some InterfaceError \/
   res_exn (run env db) = Some OSError) /\
  exists v, quoted env v /\
    res_db (run env db) = inserted (now env) v (created db) /\
    has_timestamp (now env) (rows_of (res_db (run env db))) = true.
Proof.
  run_cases env db; intros Hin Hexit; try discriminate Hexit;
    try solve [in_log Hin];
    match goal with
    | Hs : statements_return _ _ _ |- _ => destruct Hs as (Hs1 & Hs2 & Hs3)
    end.
  all: splits; [reflexivity | (left; reflexivity) || (right; reflexivity) |].
  all: eexists; split; [eassumption |]; split; [reflexivity |];
       simpl res_db; apply recorded_has_timestamp, Hs2.
Qed.

(** X9.  On a database without the table, for a price that psycopg2 can
    adapt and a FLOAT column can store, the INSERT alone raises, the
    relation missing; after the CREATE TABLE of the script it returns, and
    the database is the one it was with the table added, of the declared
    columns and with the one row; so it is after a run from such a
    database that exits with status 0. *)
Theorem create_then_insert_on_fresh_database
    (db : Database) (ts : Timestamp) (v : pyval) (p : sqlvalue) :
  db !! bitcoin_price = None ->
  adapt_error v = None ->
  coerce FLOAT v = Ok p ->
  exec_many [insert_row ts v] db = Raise ProgrammingError /\
  exec_many [create_table; insert_row ts v] db
  = Ok (<[ bitcoin_price :=
             {| tbl_columns := bitcoin_price_columns;
                tbl_rows := [ {| row_timestamp := ts; row_price_usd := p |} ] |} ]> db) /\
  (forall env, quoted env v -> now env = ts ->
     exit_status (run env db) = 0 ->
     res_db (run env db)
     = <[ bitcoin_price :=
            {| tbl_columns := bitcoin_price_columns;
               tbl_rows := [ {| row_timestamp := ts; row_price_usd := p |} ] |} ]> db).
Proof.
  intros E Ha Hp.
  assert (Hx : exec_stmt (insert_row ts v) (created db)
               = Ok (<[ bitcoin_price :=
                          {| tbl_columns := bitcoin_price_columns;
                             tbl_rows := [ {| row_timestamp := ts;
                                              row_price_usd := p |} ] |} ]> db)).
  { unfold created. rewrite E. unfold insert_row, exec_stmt.
    rewrite Ha, lookup_insert_eq.
    rewrite (insert_into_declared
               {| tbl_columns := bitcoin_price_columns; tbl_rows := [] |}
               ts v p eq_refl Hp).
    rewrite insert_insert_eq. reflexivity. }
  splits.
  - cbn [exec_many]. unfold insert_row, exec_stmt. rewrite Ha, E. reflexivity.
  - cbn [exec_many]. rewrite exec_create_table, Hx. reflexivity.
  - intros env Hq Hnow Hexit.
    destruct (run_exit_0 _ _ Hexit) as (v0 & Hq0 & _ & ->).
    rewrite (quoted_functional _ _ _ Hq0 Hq), Hnow. simpl res_db.
    exact (inserted_Ok _ _ _ _ Hx).
Qed.

(** One leaf of the script: the state is known, the four parts of the
    statement about open connections are settled on it. *)
Ltac settle_connections P :=
  subst P; cbn beta;
  cbn [snd fst st_conns st_trace st_db st_next st_stdout log set_conns
       initial_state cur_conn];
  splits;
  [ first [ solve [intros Hin; in_log Hin]
          | solve [intros _ Hn; exfalso; apply Hn; simpl; tauto]
          | intros _ _; eexists; apply lookup_insert_eq ]
  | first [ solve [intros Hin; in_log Hin]
          | intros _; rewrite !delete_insert_eq; apply delete_empty ]
  | first [ solve [intros _; reflexivity]
          | intros Hn; exfalso; apply Hn; simpl; tauto ]
  | intros c s Hor op ok Hin'; destruct Hor as [Hin | Hin]; in_log Hin;
    in_log Hin'; (split; discriminate) ].

(** X10.  The script closes nothing on an error.  In the state the script
    ends in (its log is the log of the run, [run_trace]): when [connect]
    has returned and [conn.close()] has not, the connection is still open;
    it is closed when [conn.close()] returned, and no connection is open
    when [connect] did not return.  In particular after a statement or
    the commit raised, the log holds no call of [cur.close()] or
    [conn.close()]. *)
Theorem connection_left_open_on_error (env : Env) (db : Database) :
  (In (returned (OpConnect DB_SETTINGS)) (st_trace (final_state env db)) ->
   ~ In (returned (OpConnClose 0)) (st_trace (final_state env db)) ->
   exists view, st_conns (final_state env db) !! 0%nat = Some view) /\
  (In (returned (OpConnClose 0)) (st_trace (final_state env db)) ->
   st_conns (final_state env db) = ∅) /\
  (~ In (returned (OpConnect DB_SETTINGS)) (st_trace (final_state env db)) ->
   st_conns (final_state env db) = ∅) /\
  (forall c s,
     In (raised (OpExecute c s)) (st_trace (final_state env db)) \/
     In (raised (OpCommit c)) (st_trace (final_state env db)) ->
     forall op ok, In (op, ok) (st_trace (final_state env db)) ->
       op <> OpCursorClose 0 /\ op <> OpConnClose 0).
Proof.
  pattern (final_state env db).
  match goal with |- ?P0 _ => set (P := P0) end.
  unfold final_state, script, bind, requests_get.
  destruct (env_http env API_URL) as [r|]; [| settle_connections P].
  unfold Response_json.
  destruct (json_body r) as [data|]; [| settle_connections P].
  unfold getitem at 1.
  destruct (subscript data "bitcoin") as [b|e]; [| settle_connections P].
  unfold getitem.
  destruct (subscript b "usd") as [v|e]; [| settle_connections P].
  unfold Timestamp_now, psycopg2_connect.
  destruct (env_connect env DB_SETTINGS); [| settle_connections P].
  unfold conn_cursor, cur_execute at 1.
  cbn [cur_conn st_conns st_next st_db log initial_state].
  rewrite lookup_insert_eq, exec_create_table.
  destruct (env_refuses env create_table db); [settle_connections P |].
  unfold cur_execute.
  cbn [cur_conn st_conns st_next st_db log set_conns].
  rewrite lookup_insert_eq.
  destruct (exec_stmt _ (created db)) as [db'|e]; [| settle_connections P].
  destruct (env_refuses env _ (created db)); [settle_connections P |].
  unfold conn_commit.
  cbn [cur_conn st_conns st_next st_db log set_conns].
  rewrite lookup_insert_eq.
  destruct (env_commit_ok env); [| settle_connections P].
  unfold cur_close.
  destruct (env_cursor_close_ok env); [| settle_connections P].
  unfold conn_close.
  destruct (env_conn_close_ok env); [| settle_connections P].
  unfold print.
  destruct (env_stdout_ok env); settle_connections P.
Qed.

End Recorder.

(** * Sample runs *)

(** The runs below send no string and no list for the price, so that what
    the driver and the server make of one does not bear on them; this
    instance quotes every string, takes none for a value and answers an
    array with a type error. *)
#[global] Instance sample_server : Server :=
  {| quote_error := fun _ => None;
     text_in := fun _ _ => Raise DataError;
     array_error := fun _ _ => ProgrammingError |}.

(** C1, as the source has it.  With the quote 9007199254740993, an
    integer, the row of the run holds the float8 4503599627370496 * 2^1,
    which is 9007199254740992 and the price that the quote
    9007199254740992 leaves too: the price stored is not the quote. *)
Lemma integer_price_is_rounded :
  rows_of (res_db (run (sample_env (body_of (PInt 9007199254740993))
                          sample_clock true) ∅))
  = [ {| row_timestamp := sample_now;
         row_price_usd := SqlFloat8 (S754_finite false 4503599627370496 1) |} ] /\
  rows_of (res_db (run (sample_env (body_of (PInt 9007199254740992))
                          sample_clock true) ∅))
  = [ {| row_timestamp := sample_now;
         row_price_usd := SqlFloat8 (S754_finite false 4503599627370496 1) |} ] /\
  4503599627370496 * 2 ^ 1 <> 9007199254740993.
Proof. split; [reflexivity |]. split; [reflexivity | lia]. Qed.

Lemma price_passes_through_witness :
  rows_of (res_db (run (sample_env sample_body sample_clock true) ∅))
  = [ {| row_timestamp := sample_now;
         row_price_usd := SqlFloat8 (S754_finite false 8933600695156736 (-37)) |} ].
Proof.
  destruct (price_passes_through
              (sample_env sample_body sample_clock true) ∅
              {| status_code := 200; json_body := Some sample_body |}
              {[ "bitcoin" := PDict {[ "usd" := price_65000_5 ]} ]}
              {[ "usd" := price_65000_5 ]}
              price_65000_5) as (_ & _ & _ & _ & H);
    [reflexivity | reflexivity | reflexivity | reflexivity |].
  destruct H as (ty & p & Hp & ->); [vm_compute; tauto | reflexivity |].
  apply coerce_float in Hp. subst p. reflexivity.
Defined.



Lemma missing_key_aborts_before_database_witness :
  res_exn (run (sample_env rate_limited_body sample_clock true) sample_db)
  = Some (KeyError "bitcoin") /\
  res_db (run (sample_env rate_limited_body sample_clock true) sample_db)
  = sample_db.
Proof.
  destruct (missing_key_aborts_before_database
              (sample_env rate_limited_body sample_clock true) sample_db
              {| status_code := 200; json_body := Some rate_limited_body |}
              {[ "status" := PDict {[ "error_code" := PInt 429 ]} ]})
    as (_ & _ & H & _);
    [reflexivity | reflexivity | left; reflexivity |].
  split; [reflexivity | exact H].
Defined.

Lemma unreachable_database_aborts_witness :
  exit_status (run (sample_env sample_body sample_clock false) sample_db) = 1 /\
  res_db (run (sample_env sample_body sample_clock false) sample_db) = sample_db /\
  res_stdout (run (sample_env sample_body sample_clock false) sample_db) = [].
Proof.
  destruct (unreachable_database_aborts
              (sample_env sample_body sample_clock false) sample_db)
    as (H1 & H2 & H3 & _); [reflexivity |].
  auto.
Defined.

(** C5, as the source has it.  In the sample run the timestamp captured
    by [pd.Timestamp.now()], which is the one the INSERT sends as the key
    of the sample, has no time zone: it is not timezone-aware. *)
Lemma captured_timestamp_not_aware :
  In (returned (OpNow sample_now))
     (res_trace (run (sample_env sample_body sample_clock true) ∅)) /\
  In (returned (OpExecute 0 (insert_row sample_now price_65000_5)))
     (res_trace (run (sample_env sample_body sample_clock true) ∅)) /\
  tz_aware sample_now = false.
Proof.
  change (res_trace (run (sample_env sample_body sample_clock true) ∅))
    with (all_returned (script_ops sample_now price_65000_5)).
  simpl. tauto.
Qed.

Lemma timestamp_is_naive_primary_key_witness :
  pk_unique (rows_of (res_db (run (sample_env sample_body 1 true) sample_db))).
Proof.
  destruct (timestamp_is_naive_primary_key
              (sample_env sample_body 1 true) sample_db) as (_ & _ & _ & _ & H).
  apply H. vm_compute. apply NoDup_singleton.
Defined.

Lemma steps_in_fixed_order_witness :
  steps (res_trace (run (sample_env sample_body sample_clock true) ∅))
  = recorder_steps.
Proof.
  destruct (steps_in_fixed_order (sample_env sample_body sample_clock true) ∅)
    as (_ & H & _).
  apply H. reflexivity.
Defined.

Lemma create_table_idempotent_witness :
  exec_many (replicate 3 create_table) sample_db = Ok sample_db.
Proof.
  apply (create_table_idempotent sample_db
           {| tbl_columns := bitcoin_price_columns; tbl_rows := [sample_row] |} 3).
  reflexivity.
Defined.



Lemma nothing_committed_before_commit_witness :
  res_exn (run insert_refused_env ∅) = Some OperationalError /\
  In (returned (OpExecute 0 create_table)) (res_trace (run insert_refused_env ∅)) /\
  res_db (run insert_refused_env ∅) = ∅.
Proof.
  split; [reflexivity |]. split.
  - change (In (returned (OpExecute 0 create_table))
              (failed_at 8 (script_ops sample_now price_65000_5))).
    simpl. tauto.
  - destruct (nothing_committed_before_commit insert_refused_env ∅)
      as (_ & _ & _ & H).
    apply H. intros c Hin.
    change (In (returned (OpCommit c))
              (failed_at 8 (script_ops sample_now price_65000_5))) in Hin.
    in_log Hin.
Defined.

Lemma confirmation_after_commit_witness :
  has_timestamp sample_now
    (rows_of (res_db (run (sample_env sample_body sample_clock true) ∅))) = true.
Proof.
  destruct (confirmation_after_commit
              (sample_env sample_body sample_clock true) ∅) as (_ & H).
  destruct H as (v & _ & _ & _ & _ & H); [discriminate |].
  exact H.
Defined.

Lemma runs_append_only_witness :
  pk_unique
    (rows_of (runs [sample_env sample_body 1 true; sample_env sample_body 2 true]
                sample_db)).
Proof.
  apply (runs_append_only
           [sample_env sample_body 1 true; sample_env sample_body 2 true]
           sample_db).
  vm_compute. apply NoDup_singleton.
Defined.

Lemma runs_leave_catalogue_witness :
  exists t', runs [sample_env sample_body 1 true] sample_db !! bitcoin_price = Some t' /\
             tbl_columns t' = bitcoin_price_columns.
Proof.
  destruct (runs_leave_catalogue [sample_env sample_body 1 true] sample_db)
    as (_ & H).
  apply (H {| tbl_columns := bitcoin_price_columns; tbl_rows := [sample_row] |}).
  reflexivity.
Defined.


Lemma run_depends_on_quote_only_witness :
  run (set_http http_429_with_quote (sample_env sample_body sample_clock true)) ∅
  = run (sample_env sample_body sample_clock true) ∅.
Proof.
  apply (run_depends_on_quote_only _ _ _ price_65000_5).
  - exists {| status_code := 200; json_body := Some sample_body |},
           sample_body, (PDict {[ "usd" := price_65000_5 ]}).
    repeat split; reflexivity.
  - eexists _, _, _.
    split; [reflexivity |]. split; [reflexivity |].
    split; reflexivity.
Defined.

Lemma no_quote_stops_at_parse_witness :
  res_trace (run (sample_env (PList []) sample_clock true) sample_db)
  = failed_at 2 ops_fetch /\
  res_db (run (sample_env (PList []) sample_clock true) sample_db) = sample_db.
Proof.
  destruct (no_quote_stops_at_parse (sample_env (PList []) sample_clock true) sample_db)
    as (_ & H & _).
  - intros v (r & d & b & G1 & G2 & G3 & G4).
    injection G1 as <-. injection G2 as <-. discriminate G3.
  - split; [reflexivity | exact H].
Defined.

Lemma non_object_raises_type_error_witness :
  res_exn (run (sample_env (PList []) sample_clock true) sample_db)
  = Some TypeError /\
  res_exn (run (sample_env (PDict {[ "bitcoin" := PStr "n/a" ]}) sample_clock true)
             sample_db)
  = Some TypeError.
Proof.
  split.
  - destruct (non_object_raises_type_error
                (sample_env (PList []) sample_clock true) sample_db
                {| status_code := 200; json_body := Some (PList []) |} (PList []))
      as (H & _); [reflexivity | reflexivity |].
    apply H. discriminate.
  - destruct (non_object_raises_type_error
                (sample_env (PDict {[ "bitcoin" := PStr "n/a" ]}) sample_clock true)
                sample_db
                {| status_code := 200;
                   json_body := Some (PDict {[ "bitcoin" := PStr "n/a" ]}) |}
                (PDict {[ "bitcoin" := PStr "n/a" ]}))
      as (_ & H); [reflexivity | reflexivity |].
    apply (H {[ "bitcoin" := PStr "n/a" ]} (PStr "n/a"));
      [reflexivity | reflexivity | discriminate].
Defined.

Lemma committed_despite_exit_1_witness :
  exit_status (run stdout_failing_env ∅) = 1 /\
  res_stdout (run stdout_failing_env ∅) = [] /\
  has_timestamp sample_now (rows_of (res_db (run stdout_failing_env ∅))) = true.
Proof.
  destruct (committed_despite_exit_1 stdout_failing_env ∅)
    as (Hout & _ & v & _ & _ & Hrow).
  - change (In (returned (OpCommit 0))
              (failed_at 12 (script_ops sample_now price_65000_5))).
    simpl. tauto.
  - reflexivity.
  - split; [reflexivity |]. split; [exact Hout | exact Hrow].
Defined.

Lemma create_then_insert_on_fresh_database_witness :
  exec_many [insert_row sample_now price_65000_5] ∅ = Raise ProgrammingError /\
  res_db (run (sample_env sample_body sample_clock true) ∅) = sample_db.
Proof.
  destruct (create_then_insert_on_fresh_database ∅ sample_now price_65000_5
              (SqlFloat8 (S754_finite false 8933600695156736 (-37))))
    as (H1 & _ & H3); [reflexivity | reflexivity | reflexivity |].
  split; [exact H1 |].
  rewrite (H3 (sample_env sample_body sample_clock true)); [reflexivity | | |];
    [| reflexivity | reflexivity].
  exists {| status_code := 200; json_body := Some sample_body |},
         sample_body, (PDict {[ "usd" := price_65000_5 ]}).
  repeat split; reflexivity.
Defined.

Lemma connection_left_open_on_error_witness :
  exists view, st_conns (final_state insert_refused_env ∅) !! 0%nat = Some view.
Proof.
  destruct (connection_left_open_on_error insert_refused_env ∅) as (H & _).
  apply H.
  - vm_compute. tauto.
  - vm_compute. intros Hin.
    repeat (destruct Hin as [Hin | Hin]; [discriminate Hin |]). exact Hin.
Defined.

